(** * Telethon session base class: [telethon/sessions/abstract.py]

    A shallow embedding of the abstract [Session] class and the proofs
    of the properties stated about it.

    Python objects live on a heap of instances; every instance carries
    its class and its attribute dictionary ([__dict__]).  Methods are
    computations in a state-and-exception monad over the interpreter
    state: an exception leaves the state as it was when it was raised,
    as in Python. *)

From stdpp Require Import gmap strings list fin_maps.

Local Open Scope string_scope.
Local Open Scope Z_scope.

(** ** Values and objects *)

(** Heap addresses of instances (what [id(obj)] identifies). *)
Abbreviation loc := positive.

#[local] Set Warnings "-register-all".

(** The fragment of Python values the session flags and the [clone]
    argument range over. *)
Inductive value : Type :=
  | VNone
  | VBool (b : bool)
  | VInt (n : Z)
  | VStr (s : string)
  | VList (items : list value)
  | VRef (l : loc).

(** A class, as far as the base class can observe one: its name, what
    its [__init__] assigns after calling [super().__init__()], and the
    truth value of its instances ([__bool__] or [__len__]; classes that
    define neither have instances that are always true). *)
Record pyclass : Type := PyClass {
  cls_name : string;
  cls_fields : list (string * value);
  cls_bool : gmap string value → bool;
}.

Record obj : Type := Obj {
  obj_class : pyclass;
  obj_dict : gmap string value;
}.

(** The interpreter state: the heap of live instances, and the storage
    medium a concrete backend persists to. *)
Record state : Type := State {
  heap : gmap loc obj;
  disk : gmap string (list Z);
}.

(** ** Exceptions and the method monad *)

Inductive exn : Type :=
  | AttributeError
  | NotImplementedError.

Inductive outcome (A : Type) : Type :=
  | Ok (a : A)
  | Raise (e : exn).
Arguments Ok {A} a.
Arguments Raise {A} e.

Definition M (A : Type) : Type := state → outcome A * state.

Definition ret {A} (a : A) : M A := λ σ, (Ok a, σ).

Definition raise {A} (e : exn) : M A := λ σ, (Raise e, σ).

Definition bind {A B} (m : M A) (k : A → M B) : M B :=
  λ σ, match m σ with
       | (Ok a, σ') => k a σ'
       | (Raise e, σ') => (Raise e, σ')
       end.

#[global] Instance M_ret : MRet M := @ret.
#[global] Instance M_bind : MBind M := λ A B k m, bind m k.

(** ** Interpreter primitives *)

(** [bool(v)]: the truth value Python's [or] tests. *)
Definition truthy (σ : state) (v : value) : bool :=
  match v with
  | VNone => false
  | VBool b => b
  | VInt n => negb (n =? 0)
  | VStr s => negb (String.eqb s "")
  | VList items => match items with [] => false | _ => true end
  | VRef l =>
      match heap σ !! l with
      | Some o => cls_bool (obj_class o) (obj_dict o)
      | None => true
      end
  end.

(** [a or b]: [a] when it is true, else the value of [b], which is
    evaluated only then. *)
Definition py_or (a : value) (b : M value) : M value :=
  λ σ, if truthy σ a then (Ok a, σ) else b σ.

(** [o.name] for an instance attribute. *)
Definition getattr (l : loc) (name : string) : M value :=
  λ σ, match heap σ !! l with
       | Some o =>
           match obj_dict o !! name with
           | Some v => (Ok v, σ)
           | None => (Raise AttributeError, σ)
           end
       | None => (Raise AttributeError, σ)
       end.

Definition set_field (name : string) (v : value) (o : obj) : obj :=
  Obj (obj_class o) (<[name := v]> (obj_dict o)).

(** [target.name = v]; only instances accept new attributes. *)
Definition setattr (target : value) (name : string) (v : value) : M unit :=
  λ σ, match target with
       | VRef l =>
           match heap σ !! l with
           | Some o => (Ok (), State (<[l := set_field name v o]> (heap σ)) (disk σ))
           | None => (Raise AttributeError, σ)
           end
       | _ => (Raise AttributeError, σ)
       end.

(** [o.__class__]. *)
Definition class_of (l : loc) : M pyclass :=
  λ σ, match heap σ !! l with
       | Some o => (Ok (obj_class o), σ)
       | None => (Raise AttributeError, σ)
       end.

(** [object.__new__(cls)]: a new instance with an empty [__dict__]. *)
Definition new_object (cls : pyclass) : M loc :=
  λ σ, let l := fresh (dom (heap σ)) in
       (Ok l, State (<[l := Obj cls ∅]> (heap σ)) (disk σ)).

Fixpoint assign_all (target : value) (fields : list (string * value)) : M unit :=
  match fields with
  | [] => ret ()
  | (name, v) :: rest => setattr target name v ;; assign_all target rest
  end.

(** ** The [Session] class *)

Module Session.

(** [Session.__init__]. *)
Definition __init__ (self : loc) : M unit :=
  setattr (VRef self) "_report_errors" (VBool true) ;;
  setattr (VRef self) "_flood_sleep_threshold" (VInt 60).

(** The [report_errors] property. *)
Definition report_errors (self : loc) : M value :=
  getattr self "_report_errors".

Definition report_errors_setter (self : loc) (value : value) : M unit :=
  setattr (VRef self) "_report_errors" value.

(** The [flood_sleep_threshold] property. *)
Definition flood_sleep_threshold (self : loc) : M value :=
  getattr self "_flood_sleep_threshold".

Definition flood_sleep_threshold_setter (self : loc) (value : value) : M unit :=
  setattr (VRef self) "_flood_sleep_threshold" value.

(** [cls()] for a concrete subclass [cls]: allocate, run
    [Session.__init__], then the subclass's own assignments. *)
Definition instantiate (cls : pyclass) : M value :=
  l ← new_object cls;
  __init__ l ;;
  assign_all (VRef l) (cls_fields cls) ;;
  ret (VRef l).

(** [to_instance or self.__class__()]. *)
Definition clone_target (self : loc) (to_instance : value) : M value :=
  py_or to_instance (cls ← class_of self; instantiate cls).

(** [Session.clone]. *)
Definition clone (self : loc) (to_instance : value) : M value :=
  cloned ← clone_target self to_instance;
  r ← report_errors self;
  setattr cloned "_report_errors" r ;;
  f ← flood_sleep_threshold self;
  setattr cloned "_flood_sleep_threshold" f ;;
  ret cloned.

(** [Session.list_sessions], a class method. *)
Definition list_sessions (cls : pyclass) : M value :=
  ret (VList []).

(** The abstract methods and properties.  A backend has to override
    them; the bodies the base class gives them raise, except that of
    [close], which is empty. *)
Definition set_dc (self : loc) (dc_id server_address port : value) : M value :=
  raise NotImplementedError.
Definition server_address (self : loc) : M value := raise NotImplementedError.
Definition port (self : loc) : M value := raise NotImplementedError.
Definition auth_key (self : loc) : M value := raise NotImplementedError.
Definition auth_key_setter (self : loc) (value : value) : M unit :=
  raise NotImplementedError.
Definition get_update_state (self : loc) (entity_id : value) : M value :=
  raise NotImplementedError.
Definition set_update_state (self : loc) (entity_id state : value) : M value :=
  raise NotImplementedError.
Definition close (self : loc) : M value := ret VNone.
Definition save (self : loc) : M value := raise NotImplementedError.
Definition delete (self : loc) : M value := raise NotImplementedError.
Definition process_entities (self : loc) (tlo : value) : M value :=
  raise NotImplementedError.
Definition get_input_entity (self : loc) (key : value) : M value :=
  raise NotImplementedError.
Definition cache_file (self : loc) (md5_digest file_size instance : value) : M value :=
  raise NotImplementedError.
Definition get_file (self : loc) (md5_digest file_size cls : value) : M value :=
  raise NotImplementedError.

End Session.

(** ** Observations on states *)

(** The attribute [name] of the instance at [l], if both exist. *)
Definition attr (σ : state) (l : loc) (name : string) : option value :=
  match heap σ !! l with
  | Some o => obj_dict o !! name
  | None => None
  end.

(** The class of the instance at [l]. *)
Definition class_at (σ : state) (l : loc) : option pyclass :=
  obj_class <$> heap σ !! l.

(** [l] is an initialised session: a live instance carrying both flags. *)
Definition is_session (σ : state) (l : loc) : Prop :=
  is_Some (attr σ l "_report_errors") ∧
  is_Some (attr σ l "_flood_sleep_threshold").

(** Arguments [clone] can finish with: anything false, or a live instance. *)
Definition can_clone_into (σ : state) (target : value) : Prop :=
  truthy σ target = false ∨ ∃ l, target = VRef l ∧ is_Some (heap σ !! l).

(** A subclass leaves the two private flags of the base class alone. *)
Definition keeps_flags (cls : pyclass) : Prop :=
  ("_report_errors" ∉ (cls_fields cls).*1) ∧
  ("_flood_sleep_threshold" ∉ (cls_fields cls).*1).

(** The [__dict__] a subclass's assignments leave behind. *)
Definition assign_dict (fields : list (string * value)) (d : gmap string value)
  : gmap string value :=
  fold_left (λ d kv, <[kv.1 := kv.2]> d) fields d.

(** The [__dict__] of a new instance of [cls]. *)
Definition init_dict (cls : pyclass) : gmap string value :=
  assign_dict (cls_fields cls)
    (<["_flood_sleep_threshold" := VInt 60]> (<["_report_errors" := VBool true]> ∅)).

(** [o] after the two assignments [clone] makes. *)
Definition with_flags (r f : value) (o : obj) : obj :=
  set_field "_flood_sleep_threshold" f (set_field "_report_errors" r o).

(** The body of [clone] after [cloned] has been chosen. *)
Local Abbreviation copy_flags self cloned :=
  (r ← Session.report_errors self;
   setattr cloned "_report_errors" r ;;
   f ← Session.flood_sleep_threshold self;
   setattr cloned "_flood_sleep_threshold" f ;;
   mret cloned).

(** ** Sample classes and states *)

(** A backend that keeps its data centre and its key in instance
    attributes, all unset in a new instance. *)
Definition MemoryLike : pyclass :=
  PyClass "MemoryLike"
    [("_dc_id", VInt 0); ("_server_address", VNone); ("_port", VNone);
     ("_auth_key", VNone)]
    (λ _, true).

(** A backend with a [__len__]: the number of entities it has cached.
    An instance that has cached nothing is false. *)
Definition SizedLike : pyclass :=
  PyClass "SizedLike"
    [("_entities", VList [])]
    (λ d, match d !! "_entities" with
          | Some (VList []) => false
          | _ => true
          end).

(** A session that was configured and authorised after construction. *)
Definition configured : obj :=
  Obj MemoryLike
    (list_to_map
       [("_report_errors", VBool false); ("_flood_sleep_threshold", VInt 15);
        ("_dc_id", VInt 2); ("_server_address", VStr "149.154.167.51");
        ("_port", VInt 443); ("_auth_key", VStr "key")]).

(** Sessions as their constructors leave them. *)
Definition pristine : obj := Obj MemoryLike (init_dict MemoryLike).
Definition unfilled : obj := Obj SizedLike (init_dict SizedLike).

(** Three live sessions: [configured] at 1, [pristine] at 2 and
    [unfilled] at 3. *)
Definition σ3 : state :=
  State (<[1%positive := configured]>
           (<[2%positive := pristine]> (<[3%positive := unfilled]> ∅)))
        ∅.

(** An instance at 1 that has [_report_errors] but has lost
    [_flood_sleep_threshold] (say by [del]), beside [pristine] at 2. *)
Definition σ_half : state :=
  State (<[1%positive := Obj MemoryLike (<["_report_errors" := VBool false]> ∅)]>
           (<[2%positive := pristine]> ∅))
        ∅.

(** ** Statements that are read off the specification and fail *)

(** The attributes in which [MemoryLike] keeps the data centre and the
    authorisation key. *)
Definition identity_attrs : list string :=
  ["_dc_id"; "_server_address"; "_port"; "_auth_key"].

(** "The clone's data centre and authorisation key are those of the
    source." *)
Definition clone_copies_identity : Prop :=
  ∀ σ self to_instance c σ',
    is_session σ self →
    Session.clone self to_instance σ = (Ok (VRef c), σ') →
    ∀ name, name ∈ identity_attrs → attr σ' c name = attr σ self name.

(** "Given a target instance, [clone] returns that instance." *)
Definition clone_returns_given_instance : Prop :=
  ∀ σ self target,
    is_session σ self → is_session σ target →
    ∃ σ', Session.clone self (VRef target) σ = (Ok (VRef target), σ').

(** ** Frames *)

(** What an instance can have become when [target] may have been
    written to: same class, no attribute lost, only the two flags
    possibly different, and nothing different at all unless it is the
    target. *)
Definition flags_apart (target : value) (l : loc) (o o' : obj) : Prop :=
  obj_class o' = obj_class o ∧
  (∀ name, is_Some (obj_dict o !! name) → is_Some (obj_dict o' !! name)) ∧
  (∀ name, name ≠ "_report_errors" → name ≠ "_flood_sleep_threshold" →
           obj_dict o' !! name = obj_dict o !! name) ∧
  (target ≠ VRef l → o' = o).

(** ** Reasoning about the monad and the primitives *)

Lemma bind_ok {A B} (m : M A) (k : A → M B) σ a σ' :
  m σ = (Ok a, σ') → (m ≫= k) σ = k a σ'.
Proof. intros H. unfold mbind, M_bind, bind. by rewrite H. Qed.

Lemma bind_raise {A B} (m : M A) (k : A → M B) σ e σ' :
  m σ = (Raise e, σ') → (m ≫= k) σ = (Raise e, σ').
Proof. intros H. unfold mbind, M_bind, bind. by rewrite H. Qed.

Lemma state_eta σ : State (heap σ) (disk σ) = σ.
Proof. by destruct σ. Qed.

Lemma getattr_ok σ l name v :
  attr σ l name = Some v → getattr l name σ = (Ok v, σ).
Proof.
  unfold attr, getattr. destruct (heap σ !! l) as [o|]; [|done].
  by intros ->.
Qed.

Lemma setattr_ok σ l o name v :
  heap σ !! l = Some o →
  setattr (VRef l) name v σ
  = (Ok (), State (<[l := set_field name v o]> (heap σ)) (disk σ)).
Proof. intros H. unfold setattr. by rewrite H. Qed.

Lemma attr_set_field_eq σ l o name v d :
  attr (State (<[l := set_field name v o]> (heap σ)) d) l name = Some v.
Proof. unfold attr. simpl. rewrite lookup_insert_eq. simpl. apply lookup_insert_eq. Qed.

Lemma attr_set_field_ne σ l o name name' v d :
  heap σ !! l = Some o → name ≠ name' →
  attr (State (<[l := set_field name v o]> (heap σ)) d) l name' = attr σ l name'.
Proof.
  intros Ho Hne. unfold attr. simpl. rewrite lookup_insert_eq, Ho. simpl.
  by apply lookup_insert_ne.
Qed.

Lemma attr_other_object σ l l' o name d :
  l ≠ l' → attr (State (<[l := o]> (heap σ)) d) l' name = attr σ l' name.
Proof. intros Hne. unfold attr. simpl. by rewrite lookup_insert_ne. Qed.

(** Storing the value an attribute already has changes nothing. *)
Lemma set_field_id o name v :
  obj_dict o !! name = Some v → set_field name v o = o.
Proof.
  intros H. destruct o as [c d]. unfold set_field. simpl in *.
  by rewrite insert_id.
Qed.

Lemma fresh_not_live σ : heap σ !! fresh (dom (heap σ)) = None.
Proof. apply not_elem_of_dom, is_fresh. Qed.

Lemma fresh_ne_live σ l : is_Some (heap σ !! l) → fresh (dom (heap σ)) ≠ l.
Proof.
  intros [o Ho] Heq. pose proof (fresh_not_live σ) as Hfresh.
  rewrite Heq in Hfresh. congruence.
Qed.

Lemma assign_all_ok fields : ∀ σ l o,
  heap σ !! l = Some o →
  assign_all (VRef l) fields σ
  = (Ok (), State (<[l := Obj (obj_class o) (assign_dict fields (obj_dict o))]> (heap σ))
                 (disk σ)).
Proof.
  induction fields as [|[name v] rest IH]; intros σ l o Ho; simpl.
  - unfold mret, M_ret, ret. f_equal. destruct o as [c d]. simpl.
    rewrite insert_id by done. by rewrite state_eta.
  - erewrite bind_ok by (by apply setattr_ok).
    erewrite IH by (simpl; apply lookup_insert_eq).
    simpl. by rewrite insert_insert_eq.
Qed.

Lemma assign_dict_other fields : ∀ d name,
  name ∉ fields.*1 → assign_dict fields d !! name = d !! name.
Proof.
  induction fields as [|[k v] rest IH]; intros d name Hnot; [done|].
  simpl in *. apply not_elem_of_cons in Hnot as [Hne Hrest].
  unfold assign_dict in *. simpl. rewrite IH by done.
  by apply lookup_insert_ne.
Qed.

(** *** [Session.__init__] and construction *)

Lemma Session_init_ok σ self o :
  heap σ !! self = Some o →
  Session.__init__ self σ
  = (Ok (), State (<[self := with_flags (VBool true) (VInt 60) o]> (heap σ)) (disk σ)).
Proof.
  intros Ho. unfold Session.__init__.
  erewrite bind_ok by (by apply setattr_ok).
  erewrite setattr_ok by (simpl; apply lookup_insert_eq).
  simpl. by rewrite insert_insert_eq.
Qed.

Lemma instantiate_ok cls σ :
  Session.instantiate cls σ
  = (Ok (VRef (fresh (dom (heap σ)))),
     State (<[fresh (dom (heap σ)) := Obj cls (init_dict cls)]> (heap σ)) (disk σ)).
Proof.
  unfold Session.instantiate.
  erewrite bind_ok by reflexivity.
  erewrite bind_ok by (apply Session_init_ok; simpl; apply lookup_insert_eq).
  erewrite bind_ok by (apply assign_all_ok; simpl; apply lookup_insert_eq).
  unfold mret, M_ret, ret. simpl. by rewrite !insert_insert_eq.
Qed.

(** *** [Session.clone] *)

Lemma clone_unfold self to_instance σ :
  Session.clone self to_instance σ
  = (Session.clone_target self to_instance ≫= λ cloned, copy_flags self cloned) σ.
Proof. reflexivity. Qed.

Lemma clone_target_true σ self to_instance :
  truthy σ to_instance = true →
  Session.clone_target self to_instance σ = (Ok to_instance, σ).
Proof. intros H. unfold Session.clone_target, py_or. by rewrite H. Qed.

Lemma clone_target_false σ self to_instance o :
  truthy σ to_instance = false →
  heap σ !! self = Some o →
  Session.clone_target self to_instance σ
  = (Ok (VRef (fresh (dom (heap σ)))),
     State (<[fresh (dom (heap σ)) := Obj (obj_class o) (init_dict (obj_class o))]> (heap σ))
           (disk σ)).
Proof.
  intros H Ho. unfold Session.clone_target, py_or. rewrite H.
  erewrite bind_ok by (unfold class_of; by rewrite Ho).
  apply instantiate_ok.
Qed.

Lemma copy_flags_ok σ self c oc r f :
  heap σ !! c = Some oc →
  attr σ self "_report_errors" = Some r →
  attr σ self "_flood_sleep_threshold" = Some f →
  copy_flags self (VRef c) σ
  = (Ok (VRef c), State (<[c := with_flags r f oc]> (heap σ)) (disk σ)).
Proof.
  intros Hc Hr Hf.
  erewrite bind_ok by (by apply getattr_ok).
  erewrite bind_ok by (by apply setattr_ok).
  erewrite bind_ok; cycle 1.
  { apply getattr_ok. destruct (decide (c = self)) as [->|Hne].
    - erewrite attr_set_field_ne; [exact Hf|exact Hc|done].
    - by rewrite attr_other_object. }
  erewrite bind_ok by (apply setattr_ok; simpl; apply lookup_insert_eq).
  unfold mret, M_ret, ret, with_flags. simpl. by rewrite insert_insert_eq.
Qed.

Lemma clone_ok σ σ1 self to_instance c oc r f :
  Session.clone_target self to_instance σ = (Ok (VRef c), σ1) →
  heap σ1 !! c = Some oc →
  attr σ1 self "_report_errors" = Some r →
  attr σ1 self "_flood_sleep_threshold" = Some f →
  Session.clone self to_instance σ
  = (Ok (VRef c), State (<[c := with_flags r f oc]> (heap σ1)) (disk σ1)).
Proof.
  intros Ht Hc Hr Hf. rewrite clone_unfold.
  erewrite bind_ok by exact Ht. by apply copy_flags_ok.
Qed.

Lemma is_session_live σ l : is_session σ l → is_Some (heap σ !! l).
Proof.
  intros [[r Hr] _]. unfold attr in Hr.
  destruct (heap σ !! l); [eauto|done].
Qed.

(** What [clone] does whenever it can finish: choose the clone, then
    store the two flags of [self] in it. *)
Lemma clone_returns σ self to_instance :
  is_session σ self → can_clone_into σ to_instance →
  ∃ c σ1 oc r f,
    Session.clone_target self to_instance σ = (Ok (VRef c), σ1) ∧
    heap σ1 !! c = Some oc ∧
    attr σ self "_report_errors" = Some r ∧
    attr σ self "_flood_sleep_threshold" = Some f ∧
    (∀ l, is_Some (heap σ !! l) → heap σ1 !! l = heap σ !! l) ∧
    disk σ1 = disk σ ∧
    Session.clone self to_instance σ
    = (Ok (VRef c), State (<[c := with_flags r f oc]> (heap σ1)) (disk σ1)).
Proof.
  intros Hs Ht. pose proof (is_session_live _ _ Hs) as [o Ho].
  destruct Hs as [[r Hr] [f Hf]].
  destruct (truthy σ to_instance) eqn:Htruth.
  - destruct Ht as [Ht|(c & -> & [oc Hc])]; [congruence|].
    exists c, σ, oc, r, f.
    pose proof (clone_target_true σ self (VRef c) Htruth) as Htgt.
    split; [exact Htgt|]. split; [exact Hc|]. split; [exact Hr|].
    split; [exact Hf|]. split; [done|]. split; [done|].
    by eapply clone_ok.
  - pose proof (clone_target_false σ self to_instance o Htruth Ho) as Htgt.
    assert (fresh (dom (heap σ)) ≠ self) as Hne by (apply fresh_ne_live; eauto).
    eexists _, _, _, r, f. split; [exact Htgt|].
    split; [simpl; apply lookup_insert_eq|].
    split; [exact Hr|]. split; [exact Hf|]. split; [|split; [done|]].
    + intros l Hl. simpl. apply lookup_insert_ne. by apply fresh_ne_live.
    + eapply clone_ok; [exact Htgt|simpl; apply lookup_insert_eq| |];
        by rewrite attr_other_object.
Qed.

Lemma getattr_fail σ l name :
  attr σ l name = None → getattr l name σ = (Raise AttributeError, σ).
Proof.
  unfold attr, getattr. destruct (heap σ !! l) as [o|]; [|done].
  by intros ->.
Qed.

Lemma attr_lookup σ l o name :
  heap σ !! l = Some o → attr σ l name = obj_dict o !! name.
Proof. intros H. unfold attr. by rewrite H. Qed.

(** Writing to [c] an attribute value read from [self] leaves the
    instance at [self] as it is, whether or not [c] is [self]. *)
Lemma store_own_value σ self c oc name v d :
  heap σ !! c = Some oc →
  attr σ self name = Some v →
  heap (State (<[c := set_field name v oc]> (heap σ)) d) !! self = heap σ !! self.
Proof.
  intros Hc Hv. simpl. destruct (decide (c = self)) as [->|Hne].
  - rewrite lookup_insert_eq, Hc. f_equal. apply set_field_id.
    by rewrite <- (attr_lookup σ self oc name Hc).
  - by apply lookup_insert_ne.
Qed.

Lemma copy_flags_frame σ self cloned :
  heap (copy_flags self cloned σ).2 !! self = heap σ !! self.
Proof.
  destruct (attr σ self "_report_errors") as [r|] eqn:Hr;
    [|by erewrite bind_raise by (by apply getattr_fail)].
  erewrite bind_ok by (by apply getattr_ok).
  destruct cloned as [| | | | |c]; try (by erewrite bind_raise by reflexivity).
  destruct (heap σ !! c) as [oc|] eqn:Hc;
    [|by erewrite bind_raise by (unfold setattr; by rewrite Hc)].
  erewrite bind_ok by (by apply setattr_ok).
  pose proof (store_own_value σ self c oc _ r (disk σ) Hc Hr) as H1.
  set (σ1 := State _ _) in *.
  assert (heap σ1 !! c = Some (set_field "_report_errors" r oc)) as Hc1
    by (subst σ1; simpl; apply lookup_insert_eq).
  destruct (attr σ1 self "_flood_sleep_threshold") as [f|] eqn:Hf;
    [|by erewrite bind_raise by (by apply getattr_fail)].
  erewrite bind_ok by (by apply getattr_ok).
  erewrite bind_ok by (by apply setattr_ok).
  unfold mret, M_ret, ret. cbn [snd].
  by rewrite (store_own_value σ1 self c _ _ f (disk σ1) Hc1 Hf).
Qed.

(** [clone] returns normally only for a session and a target it can
    finish with: the two hypotheses of [clone_returns] are exactly the
    inputs on which [clone] does not raise. *)
Lemma copy_flags_ok_inv σ self cloned v σ' :
  copy_flags self cloned σ = (Ok v, σ') →
  is_session σ self ∧ ∃ c, cloned = VRef c ∧ is_Some (heap σ !! c).
Proof.
  intros H.
  destruct (attr σ self "_report_errors") as [r|] eqn:Hr;
    [|erewrite bind_raise in H by (by apply getattr_fail); discriminate H].
  erewrite bind_ok in H by (by apply getattr_ok).
  destruct cloned as [| | | | |c];
    try (erewrite bind_raise in H by reflexivity; discriminate H).
  destruct (heap σ !! c) as [oc|] eqn:Hc;
    [|erewrite bind_raise in H by (unfold setattr; by rewrite Hc); discriminate H].
  erewrite bind_ok in H by (by apply setattr_ok).
  pose proof (store_own_value σ self c oc _ r (disk σ) Hc Hr) as H1.
  set (σ1 := State _ _) in *.
  destruct (attr σ1 self "_flood_sleep_threshold") as [f|] eqn:Hf;
    [|erewrite bind_raise in H by (by apply getattr_fail); discriminate H].
  unfold attr in Hf. rewrite H1 in Hf.
  split; [split; [by exists r|by exists f]|].
  exists c. split; [done|by exists oc].
Qed.

Lemma clone_returns_only_if σ self to_instance v σ' :
  Session.clone self to_instance σ = (Ok v, σ') →
  is_session σ self ∧ can_clone_into σ to_instance.
Proof.
  rewrite clone_unfold. intros H.
  destruct (truthy σ to_instance) eqn:Htruth.
  - erewrite bind_ok in H by (by apply clone_target_true).
    apply copy_flags_ok_inv in H as [Hs Hc]. split; [exact Hs|by right].
  - destruct (heap σ !! self) as [o|] eqn:Ho.
    + erewrite bind_ok in H by (by apply clone_target_false).
      apply copy_flags_ok_inv in H as [[Hr Hf] _].
      assert (fresh (dom (heap σ)) ≠ self) as Hne by (apply fresh_ne_live; eauto).
      rewrite attr_other_object in Hr, Hf by done.
      split; [by split|by left].
    + erewrite bind_raise in H; [discriminate H|].
      unfold Session.clone_target, py_or. rewrite Htruth.
      apply bind_raise. unfold class_of. by rewrite Ho.
Qed.

(** [clone] without a target: a new instance of the class of [self],
    every instance that was live before is as it was. *)
Lemma clone_absent σ self :
  is_session σ self →
  ∃ c σ',
    Session.clone self VNone σ = (Ok (VRef c), σ') ∧
    heap σ !! c = None ∧
    is_Some (class_at σ' c) ∧
    class_at σ' c = class_at σ self ∧
    ∀ l, l ≠ c → heap σ' !! l = heap σ !! l.
Proof.
  intros Hs. pose proof (is_session_live _ _ Hs) as [o Ho].
  destruct Hs as [[r Hr] [f Hf]].
  assert (fresh (dom (heap σ)) ≠ self) as Hne by (apply fresh_ne_live; eauto).
  eexists _, _. split.
  { eapply clone_ok.
    - by apply clone_target_false.
    - simpl. apply lookup_insert_eq.
    - by rewrite attr_other_object.
    - by rewrite attr_other_object. }
  split; [apply fresh_not_live|].
  unfold class_at. simpl. rewrite lookup_insert_eq, Ho. simpl.
  split; [eauto|]. split; [done|].
  intros l Hl. by rewrite !lookup_insert_ne.
Qed.

(** [Session.__init__] gives the instance it initialises the default
    flags. *)
Lemma Session_init_defaults σ self :
  is_Some (heap σ !! self) →
  ∃ σ',
    Session.__init__ self σ = (Ok (), σ') ∧
    Session.report_errors self σ' = (Ok (VBool true), σ') ∧
    Session.flood_sleep_threshold self σ' = (Ok (VInt 60), σ').
Proof.
  intros [o Ho]. eexists. split; [by apply Session_init_ok|].
  split; apply getattr_ok; unfold attr, with_flags, set_field; simpl;
    rewrite lookup_insert_eq; simpl.
  - rewrite lookup_insert_ne by done. apply lookup_insert_eq.
  - apply lookup_insert_eq.
Qed.

(** [clone] in closed form, from the state it starts in.  Into a live
    instance that is true: that instance, with the two flags of [self]
    stored in it. *)
Lemma clone_into_true σ self c oc r f :
  truthy σ (VRef c) = true →
  heap σ !! c = Some oc →
  attr σ self "_report_errors" = Some r →
  attr σ self "_flood_sleep_threshold" = Some f →
  Session.clone self (VRef c) σ
  = (Ok (VRef c), State (<[c := with_flags r f oc]> (heap σ)) (disk σ)).
Proof.
  intros Htrue Hc Hr Hf.
  by erewrite clone_ok; [|by apply clone_target_true|exact Hc|exact Hr|exact Hf].
Qed.

(** With a false target: an instance at an address that was not live,
    made by the constructor of the class of [self], with the two flags
    of [self] stored in it. *)
Lemma clone_into_false σ self to_instance o r f :
  truthy σ to_instance = false →
  heap σ !! self = Some o →
  attr σ self "_report_errors" = Some r →
  attr σ self "_flood_sleep_threshold" = Some f →
  Session.clone self to_instance σ
  = (Ok (VRef (fresh (dom (heap σ)))),
     State (<[fresh (dom (heap σ)) :=
                with_flags r f (Obj (obj_class o) (init_dict (obj_class o)))]>
              (heap σ))
           (disk σ)).
Proof.
  intros Hfalse Ho Hr Hf.
  assert (fresh (dom (heap σ)) ≠ self) as Hne by (apply fresh_ne_live; eauto).
  erewrite clone_ok;
    [|by apply clone_target_false|simpl; apply lookup_insert_eq
     |by rewrite attr_other_object|by rewrite attr_other_object].
  simpl. by rewrite insert_insert_eq.
Qed.

(** The attributes of an instance in which the two flags were stored. *)
Lemma attr_with_flags σ c o r f d :
  attr (State (<[c := with_flags r f o]> (heap σ)) d) c "_report_errors" = Some r ∧
  attr (State (<[c := with_flags r f o]> (heap σ)) d) c "_flood_sleep_threshold"
  = Some f ∧
  ∀ name, name ≠ "_report_errors" → name ≠ "_flood_sleep_threshold" →
          attr (State (<[c := with_flags r f o]> (heap σ)) d) c name
          = obj_dict o !! name.
Proof.
  unfold attr, with_flags, set_field. simpl. rewrite lookup_insert_eq. simpl.
  split; [rewrite lookup_insert_ne by done; apply lookup_insert_eq|].
  split; [apply lookup_insert_eq|].
  intros name Hr Hf. by rewrite !lookup_insert_ne.
Qed.

(** ** The sample sessions, run *)

(** Cloning the configured session with no target: a new instance at 4
    with the flags of the source and nothing else of it. *)
Example clone_configured :
  Session.clone 1%positive VNone σ3
  = (Ok (VRef 4%positive),
     State (<[4%positive :=
                Obj MemoryLike
                  (list_to_map
                     [("_report_errors", VBool false);
                      ("_flood_sleep_threshold", VInt 15);
                      ("_dc_id", VInt 0); ("_server_address", VNone);
                      ("_port", VNone); ("_auth_key", VNone)])]> (heap σ3))
           ∅).
Proof. vm_compute. reflexivity. Qed.

(** Cloning into the pristine session: the same instance, now with the
    flags of the source. *)
Example clone_into_pristine :
  Session.clone 1%positive (VRef 2%positive) σ3
  = (Ok (VRef 2%positive),
     State (<[2%positive :=
                Obj MemoryLike
                  (list_to_map
                     [("_report_errors", VBool false);
                      ("_flood_sleep_threshold", VInt 15);
                      ("_dc_id", VInt 0); ("_server_address", VNone);
                      ("_port", VNone); ("_auth_key", VNone)])]> (heap σ3))
           ∅).
Proof. vm_compute. reflexivity. Qed.

(** A true target that is not an instance: the first assignment raises
    and nothing has changed. *)
Example clone_into_number :
  Session.clone 1%positive (VInt 5) σ3 = (Raise AttributeError, σ3).
Proof. vm_compute. reflexivity. Qed.

(** The session at 3 has cached nothing, so it is false: cloning into
    it returns a new instance at 4 and leaves 3 as it was. *)
Example clone_into_unfilled :
  truthy σ3 (VRef 3%positive) = false ∧
  (Session.clone 1%positive (VRef 3%positive) σ3).1 = Ok (VRef 4%positive) ∧
  heap (Session.clone 1%positive (VRef 3%positive) σ3).2 !! 3%positive = Some unfilled.
Proof. repeat split; vm_compute; reflexivity. Qed.

(** The number [0] and the empty list are false: a new instance. *)
Example clone_into_zero :
  (Session.clone 1%positive (VInt 0) σ3).1 = Ok (VRef 4%positive) ∧
  (Session.clone 1%positive (VList []) σ3).1 = Ok (VRef 4%positive).
Proof. split; vm_compute; reflexivity. Qed.

(** The sample sessions are sessions, and the sample class keeps the
    flags. *)
Lemma configured_is_session : is_session σ3 1%positive.
Proof. split; [exists (VBool false)|exists (VInt 15)]; vm_compute; reflexivity. Defined.

Lemma pristine_is_session : is_session σ3 2%positive.
Proof. split; [exists (VBool true)|exists (VInt 60)]; vm_compute; reflexivity. Defined.

Lemma unfilled_is_session : is_session σ3 3%positive.
Proof. split; [exists (VBool true)|exists (VInt 60)]; vm_compute; reflexivity. Defined.

Lemma MemoryLike_keeps_flags : keeps_flags MemoryLike.
Proof.
  split; simpl; intros Hin;
    repeat (apply elem_of_cons in Hin as [Heq|Hin]; [discriminate Heq|]);
    by apply elem_of_nil in Hin.
Defined.

(** ** The properties of the specification *)

(** C1, as amended.  For a session [self] and a target that is absent
    (false) or a live instance, [clone] returns a session whose
    [report_errors] and [flood_sleep_threshold] are those of [self].
    The session it returns is the target when the target is true, and
    then every attribute other than the two flags, and the class, are
    what the target had before the call.  Otherwise it is an instance
    that was not live before, of the class of [self], and every
    attribute other than the two flags is what the constructor of that
    class gives a new instance.  Either way nothing but the two flags
    comes from [self]: neither the data centre nor the authorisation
    key nor the caches are copied. *)
Theorem clone_flags_equal_source σ self to_instance :
  is_session σ self → can_clone_into σ to_instance →
  ∃ c σ' r f,
    Session.clone self to_instance σ = (Ok (VRef c), σ') ∧
    Session.report_errors self σ = (Ok r, σ) ∧
    Session.report_errors c σ' = (Ok r, σ') ∧
    Session.flood_sleep_threshold self σ = (Ok f, σ) ∧
    Session.flood_sleep_threshold c σ' = (Ok f, σ') ∧
    (truthy σ to_instance = true →
       to_instance = VRef c ∧
       is_Some (heap σ !! c) ∧
       class_at σ' c = class_at σ c ∧
       ∀ name, name ≠ "_report_errors" → name ≠ "_flood_sleep_threshold" →
               attr σ' c name = attr σ c name) ∧
    (truthy σ to_instance = false →
       heap σ !! c = None ∧
       ∃ cls,
         class_at σ self = Some cls ∧
         class_at σ' c = Some cls ∧
         ∀ name, name ≠ "_report_errors" → name ≠ "_flood_sleep_threshold" →
                 attr σ' c name = init_dict cls !! name).
Proof.
  intros Hs Ht. pose proof (is_session_live _ _ Hs) as [o Ho].
  destruct Hs as [[r Hr] [f Hf]].
  destruct (truthy σ to_instance) eqn:Htruth.
  - destruct Ht as [Ht|(c & -> & [oc Hc])]; [congruence|].
    pose proof (attr_with_flags σ c oc r f (disk σ)) as (Hr' & Hf' & Hrest).
    eexists c, _, r, f.
    split; [by apply clone_into_true|].
    split; [by apply getattr_ok|]. split; [by apply getattr_ok|].
    split; [by apply getattr_ok|]. split; [by apply getattr_ok|].
    split; [|intros Habs; discriminate Habs]. intros _.
    split; [done|]. split; [eauto|].
    split; [unfold class_at; simpl; by rewrite lookup_insert_eq, Hc|].
    intros name Hn1 Hn2. rewrite Hrest by done.
    by rewrite (attr_lookup σ c oc name Hc).
  - pose proof (attr_with_flags σ (fresh (dom (heap σ)))
                  (Obj (obj_class o) (init_dict (obj_class o))) r f (disk σ))
      as (Hr' & Hf' & Hrest).
    eexists (fresh (dom (heap σ))), _, r, f.
    split; [by eapply clone_into_false|].
    split; [by apply getattr_ok|]. split; [by apply getattr_ok|].
    split; [by apply getattr_ok|]. split; [by apply getattr_ok|].
    split; [intros Habs; discriminate Habs|]. intros _.
    split; [apply fresh_not_live|].
    exists (obj_class o).
    split; [unfold class_at; by rewrite Ho|].
    split; [unfold class_at; simpl; by rewrite lookup_insert_eq|].
    exact Hrest.
Qed.

Lemma clone_flags_equal_source_witness :
  is_session σ3 1%positive ∧ can_clone_into σ3 VNone ∧
  ∃ c σ' r f,
    Session.clone 1%positive VNone σ3 = (Ok (VRef c), σ') ∧
    Session.report_errors 1%positive σ3 = (Ok r, σ3) ∧
    Session.report_errors c σ' = (Ok r, σ') ∧
    Session.flood_sleep_threshold 1%positive σ3 = (Ok f, σ3) ∧
    Session.flood_sleep_threshold c σ' = (Ok f, σ') ∧
    (truthy σ3 VNone = true →
       VNone = VRef c ∧
       is_Some (heap σ3 !! c) ∧
       class_at σ' c = class_at σ3 c ∧
       ∀ name, name ≠ "_report_errors" → name ≠ "_flood_sleep_threshold" →
               attr σ' c name = attr σ3 c name) ∧
    (truthy σ3 VNone = false →
       heap σ3 !! c = None ∧
       ∃ cls,
         class_at σ3 1%positive = Some cls ∧
         class_at σ' c = Some cls ∧
         ∀ name, name ≠ "_report_errors" → name ≠ "_flood_sleep_threshold" →
                 attr σ' c name = init_dict cls !! name).
Proof.
  split; [exact configured_is_session|].
  split; [left; reflexivity|].
  apply (clone_flags_equal_source σ3 1%positive VNone).
  - exact configured_is_session.
  - left; reflexivity.
Defined.

(** The statement of C1 itself fails: cloning the configured session
    yields a session with no authorisation key. *)
Lemma clone_leaves_auth_key_behind : ¬ clone_copies_identity.
Proof.
  intros H.
  specialize (H σ3 1%positive VNone 4%positive
                (Session.clone 1%positive VNone σ3).2 configured_is_session).
  assert (Session.clone 1%positive VNone σ3
          = (Ok (VRef 4%positive), (Session.clone 1%positive VNone σ3).2)) as Hrun
    by (vm_compute; reflexivity).
  specialize (H Hrun "_auth_key").
  assert ("_auth_key" ∈ identity_attrs) as Hin
    by (unfold identity_attrs; set_solver).
  specialize (H Hin). vm_compute in H. discriminate H.
Qed.

(** C3.  The base class's [clone] copies exactly the two flags and
    nothing else.  With [r] and [f] the values of [_report_errors] and
    [_flood_sleep_threshold] in [self], the state after the call is the
    state before it with one instance written.  When the target is
    true, that instance is the target, and its [__dict__] is what it
    was with [r] and [f] stored under the two names.  When the target
    is false, it is an instance at an address that was not live, of the
    class of [self], and its [__dict__] is that of a new instance of
    the class with [r] and [f] stored under the two names.  No other
    attribute of [self] reaches the clone, and no other instance and
    no storage is written. *)
Theorem clone_copies_exactly_two_flags σ self to_instance :
  is_session σ self → can_clone_into σ to_instance →
  ∃ o r f,
    heap σ !! self = Some o ∧
    obj_dict o !! "_report_errors" = Some r ∧
    obj_dict o !! "_flood_sleep_threshold" = Some f ∧
    (truthy σ to_instance = true →
       ∃ c oc,
         to_instance = VRef c ∧
         heap σ !! c = Some oc ∧
         Session.clone self to_instance σ
         = (Ok (VRef c),
            State (<[c := Obj (obj_class oc)
                              (<["_flood_sleep_threshold" := f]>
                                 (<["_report_errors" := r]> (obj_dict oc)))]> (heap σ))
                  (disk σ))) ∧
    (truthy σ to_instance = false →
       ∃ c,
         heap σ !! c = None ∧
         Session.clone self to_instance σ
         = (Ok (VRef c),
            State (<[c := Obj (obj_class o)
                              (<["_flood_sleep_threshold" := f]>
                                 (<["_report_errors" := r]> (init_dict (obj_class o))))]>
                     (heap σ))
                  (disk σ))).
Proof.
  intros Hs Ht. pose proof (is_session_live _ _ Hs) as [o Ho].
  destruct Hs as [[r Hr] [f Hf]].
  exists o, r, f. split; [exact Ho|].
  split; [by rewrite <- (attr_lookup σ self o _ Ho)|].
  split; [by rewrite <- (attr_lookup σ self o _ Ho)|].
  split; intros Htruth.
  - destruct Ht as [Ht|(c & -> & [oc Hc])]; [congruence|].
    exists c, oc. split; [done|]. split; [exact Hc|].
    by apply clone_into_true.
  - exists (fresh (dom (heap σ))). split; [apply fresh_not_live|].
    by eapply clone_into_false.
Qed.

Lemma clone_copies_exactly_two_flags_witness :
  is_session σ3 1%positive ∧ can_clone_into σ3 (VRef 2%positive) ∧
  ∃ o r f,
    heap σ3 !! 1%positive = Some o ∧
    obj_dict o !! "_report_errors" = Some r ∧
    obj_dict o !! "_flood_sleep_threshold" = Some f ∧
    (truthy σ3 (VRef 2%positive) = true →
       ∃ c oc,
         VRef 2%positive = VRef c ∧
         heap σ3 !! c = Some oc ∧
         Session.clone 1%positive (VRef 2%positive) σ3
         = (Ok (VRef c),
            State (<[c := Obj (obj_class oc)
                              (<["_flood_sleep_threshold" := f]>
                                 (<["_report_errors" := r]> (obj_dict oc)))]> (heap σ3))
                  (disk σ3))) ∧
    (truthy σ3 (VRef 2%positive) = false →
       ∃ c,
         heap σ3 !! c = None ∧
         Session.clone 1%positive (VRef 2%positive) σ3
         = (Ok (VRef c),
            State (<[c := Obj (obj_class o)
                              (<["_flood_sleep_threshold" := f]>
                                 (<["_report_errors" := r]> (init_dict (obj_class o))))]>
                     (heap σ3))
                  (disk σ3))).
Proof.
  assert (can_clone_into σ3 (VRef 2%positive)) as Htarget.
  { right. exists 2%positive. split; [reflexivity|].
    exists pristine. vm_compute. reflexivity. }
  split; [exact configured_is_session|].
  split; [exact Htarget|].
  exact (clone_copies_exactly_two_flags σ3 1%positive (VRef 2%positive)
           configured_is_session Htarget).
Defined.

(** C6, as amended.  Called with no target, [clone] returns a new
    instance (one that was not live before the call) of the class of
    [self].  Called with a live target instance that is true, it
    returns that very instance, updated, and creates no object: the
    target now has the [_report_errors] and [_flood_sleep_threshold]
    of [self], and its class and its other attributes are what they
    were. *)
Theorem clone_fresh_or_given_instance σ self :
  is_session σ self →
  (∃ c σ',
      Session.clone self VNone σ = (Ok (VRef c), σ') ∧
      heap σ !! c = None ∧
      is_Some (class_at σ' c) ∧
      class_at σ' c = class_at σ self) ∧
  (∀ target,
      is_Some (heap σ !! target) → truthy σ (VRef target) = true →
      ∃ σ',
        Session.clone self (VRef target) σ = (Ok (VRef target), σ') ∧
        dom (heap σ') = dom (heap σ) ∧
        is_Some (attr σ' target "_report_errors") ∧
        attr σ' target "_report_errors" = attr σ self "_report_errors" ∧
        is_Some (attr σ' target "_flood_sleep_threshold") ∧
        attr σ' target "_flood_sleep_threshold"
        = attr σ self "_flood_sleep_threshold" ∧
        class_at σ' target = class_at σ target ∧
        ∀ name, name ≠ "_report_errors" → name ≠ "_flood_sleep_threshold" →
                attr σ' target name = attr σ target name).
Proof.
  intros Hs. split.
  - destruct (clone_absent σ self Hs) as (c & σ' & Hrun & Hnew & Hcls & Hsame & _).
    by exists c, σ'.
  - destruct Hs as [[r Hr] [f Hf]].
    intros target [ot Hot] Htrue.
    pose proof (attr_with_flags σ target ot r f (disk σ)) as (Hr' & Hf' & Hrest).
    eexists. split; [by apply clone_into_true|].
    split.
    { simpl. rewrite dom_insert_L. apply subseteq_union_1_L.
      apply singleton_subseteq_l. by eapply elem_of_dom_2. }
    rewrite Hr', Hf', Hr, Hf.
    split; [eauto|]. split; [done|]. split; [eauto|]. split; [done|].
    split; [unfold class_at; simpl; by rewrite lookup_insert_eq, Hot|].
    intros name Hn1 Hn2. rewrite Hrest by done.
    by rewrite (attr_lookup σ target ot name Hot).
Qed.

Lemma clone_fresh_or_given_instance_witness :
  is_session σ3 1%positive ∧
  (∃ c σ',
      Session.clone 1%positive VNone σ3 = (Ok (VRef c), σ') ∧
      heap σ3 !! c = None ∧
      is_Some (class_at σ' c) ∧
      class_at σ' c = class_at σ3 1%positive) ∧
  (∀ target,
      is_Some (heap σ3 !! target) → truthy σ3 (VRef target) = true →
      ∃ σ',
        Session.clone 1%positive (VRef target) σ3 = (Ok (VRef target), σ') ∧
        dom (heap σ') = dom (heap σ3) ∧
        is_Some (attr σ' target "_report_errors") ∧
        attr σ' target "_report_errors" = attr σ3 1%positive "_report_errors" ∧
        is_Some (attr σ' target "_flood_sleep_threshold") ∧
        attr σ' target "_flood_sleep_threshold"
        = attr σ3 1%positive "_flood_sleep_threshold" ∧
        class_at σ' target = class_at σ3 target ∧
        ∀ name, name ≠ "_report_errors" → name ≠ "_flood_sleep_threshold" →
                attr σ' target name = attr σ3 target name).
Proof.
  split; [exact configured_is_session|].
  exact (clone_fresh_or_given_instance σ3 1%positive configured_is_session).
Defined.

(** The statement of C6 itself fails: a session that has cached nothing
    and whose class defines [__len__] is false, so [clone] does not
    return it but a new instance. *)
Lemma clone_replaces_false_instance : ¬ clone_returns_given_instance.
Proof.
  intros H.
  destruct (H σ3 1%positive 3%positive configured_is_session unfilled_is_session)
    as [σ' Hrun].
  vm_compute in Hrun. discriminate Hrun.
Qed.

(** C8.  A target that is false, whatever it is ([None], [False], [0],
    an empty string or list, an instance whose class makes it false),
    is treated as absent: [clone] behaves exactly as with [None]; it
    returns a new instance of the class of [self], and when the target
    is an instance, that instance is left as it was. *)
Theorem clone_false_target_is_absent σ self to_instance :
  is_session σ self → truthy σ to_instance = false →
  Session.clone self to_instance σ = Session.clone self VNone σ ∧
  ∃ c σ',
    Session.clone self to_instance σ = (Ok (VRef c), σ') ∧
    heap σ !! c = None ∧
    is_Some (class_at σ' c) ∧
    class_at σ' c = class_at σ self ∧
    to_instance ≠ VRef c ∧
    ∀ l, to_instance = VRef l → heap σ' !! l = heap σ !! l.
Proof.
  intros Hs Hfalse.
  assert (Session.clone self to_instance σ = Session.clone self VNone σ) as Heq.
  { rewrite !clone_unfold. unfold mbind, M_bind, bind.
    unfold Session.clone_target, py_or. by rewrite Hfalse. }
  split; [exact Heq|]. rewrite Heq.
  destruct (clone_absent σ self Hs)
    as (c & σ' & Hrun & Hnew & Hcls & Hsame & Hframe).
  exists c, σ'. split; [exact Hrun|]. split; [exact Hnew|].
  split; [exact Hcls|]. split; [exact Hsame|]. split.
  - intros ->. simpl in Hfalse. by rewrite Hnew in Hfalse.
  - intros l ->. apply Hframe. intros ->.
    simpl in Hfalse. by rewrite Hnew in Hfalse.
Qed.

Lemma clone_false_target_is_absent_witness :
  is_session σ3 1%positive ∧ truthy σ3 (VRef 3%positive) = false ∧
  Session.clone 1%positive (VRef 3%positive) σ3 = Session.clone 1%positive VNone σ3 ∧
  ∃ c σ',
    Session.clone 1%positive (VRef 3%positive) σ3 = (Ok (VRef c), σ') ∧
    heap σ3 !! c = None ∧
    is_Some (class_at σ' c) ∧
    class_at σ' c = class_at σ3 1%positive ∧
    VRef 3%positive ≠ VRef c ∧
    ∀ l, VRef 3%positive = VRef l → heap σ' !! l = heap σ3 !! l.
Proof.
  assert (truthy σ3 (VRef 3%positive) = false) as Hfalse
    by (vm_compute; reflexivity).
  split; [exact configured_is_session|].
  split; [exact Hfalse|].
  exact (clone_false_target_is_absent σ3 1%positive (VRef 3%positive)
           configured_is_session Hfalse).
Defined.

(** C9.  [clone] leaves the instance it is called on as it was: the
    same class and the same [__dict__], so [report_errors],
    [flood_sleep_threshold] and every other attribute read the same
    before and after.  This holds for every target, also when the
    target is [self], and whether [clone] returns or raises. *)
Theorem clone_leaves_source_unchanged σ self to_instance :
  is_Some (heap σ !! self) →
  heap (Session.clone self to_instance σ).2 !! self = heap σ !! self ∧
  ∀ name, attr (Session.clone self to_instance σ).2 self name = attr σ self name.
Proof.
  intros [o Ho].
  assert (heap (Session.clone self to_instance σ).2 !! self = heap σ !! self) as Hobj.
  { rewrite clone_unfold.
    destruct (truthy σ to_instance) eqn:Htruth.
    - erewrite bind_ok by (by apply clone_target_true).
      apply copy_flags_frame.
    - erewrite bind_ok by (by apply clone_target_false).
      rewrite copy_flags_frame. simpl. apply lookup_insert_ne.
      apply fresh_ne_live. eauto. }
  split; [exact Hobj|].
  intros name. unfold attr. by rewrite Hobj.
Qed.

Lemma clone_leaves_source_unchanged_witness :
  is_Some (heap σ3 !! 1%positive) ∧
  heap (Session.clone 1%positive (VRef 1%positive) σ3).2 !! 1%positive
  = heap σ3 !! 1%positive ∧
  ∀ name, attr (Session.clone 1%positive (VRef 1%positive) σ3).2 1%positive name
          = attr σ3 1%positive name.
Proof.
  assert (is_Some (heap σ3 !! 1%positive)) as Hlive
    by (exists configured; vm_compute; reflexivity).
  split; [exact Hlive|].
  exact (clone_leaves_source_unchanged σ3 1%positive (VRef 1%positive) Hlive).
Defined.

(** C4.  A newly constructed session has [report_errors] equal to
    [True] and [flood_sleep_threshold] equal to [60]: this is what
    [Session.__init__] leaves in the instance it initialises, and what
    a new instance of any class has whose own constructor leaves the
    two private flags alone. *)
Theorem new_session_defaults cls σ :
  keeps_flags cls →
  (∀ self, is_Some (heap σ !! self) →
     ∃ σ',
       Session.__init__ self σ = (Ok (), σ') ∧
       Session.report_errors self σ' = (Ok (VBool true), σ') ∧
       Session.flood_sleep_threshold self σ' = (Ok (VInt 60), σ')) ∧
  ∃ l σ',
    Session.instantiate cls σ = (Ok (VRef l), σ') ∧
    heap σ !! l = None ∧
    class_at σ' l = Some cls ∧
    Session.report_errors l σ' = (Ok (VBool true), σ') ∧
    Session.flood_sleep_threshold l σ' = (Ok (VInt 60), σ').
Proof.
  intros [Hr Hf]. split; [intros self; apply Session_init_defaults|].
  eexists _, _. split; [apply instantiate_ok|].
  split; [apply fresh_not_live|].
  split; [unfold class_at; simpl; by rewrite lookup_insert_eq|].
  split; apply getattr_ok; unfold attr; simpl; rewrite lookup_insert_eq; simpl;
    unfold init_dict; rewrite assign_dict_other by done.
  - rewrite lookup_insert_ne by done. apply lookup_insert_eq.
  - apply lookup_insert_eq.
Qed.

Lemma new_session_defaults_witness :
  keeps_flags MemoryLike ∧
  (∀ self, is_Some (heap σ3 !! self) →
     ∃ σ',
       Session.__init__ self σ3 = (Ok (), σ') ∧
       Session.report_errors self σ' = (Ok (VBool true), σ') ∧
       Session.flood_sleep_threshold self σ' = (Ok (VInt 60), σ')) ∧
  ∃ l σ',
    Session.instantiate MemoryLike σ3 = (Ok (VRef l), σ') ∧
    heap σ3 !! l = None ∧
    class_at σ' l = Some MemoryLike ∧
    Session.report_errors l σ' = (Ok (VBool true), σ') ∧
    Session.flood_sleep_threshold l σ' = (Ok (VInt 60), σ').
Proof.
  split; [exact MemoryLike_keeps_flags|].
  exact (new_session_defaults MemoryLike σ3 MemoryLike_keeps_flags).
Defined.

(** C5.  Setting [report_errors] to [v] and reading it back gives [v],
    and likewise for [flood_sleep_threshold]; each setter writes to the
    heap only and leaves the storage medium as it was. *)
Theorem flag_set_then_get σ self v :
  is_Some (heap σ !! self) →
  (∃ σ',
      Session.report_errors_setter self v σ = (Ok (), σ') ∧
      Session.report_errors self σ' = (Ok v, σ') ∧
      disk σ' = disk σ) ∧
  (∃ σ',
      Session.flood_sleep_threshold_setter self v σ = (Ok (), σ') ∧
      Session.flood_sleep_threshold self σ' = (Ok v, σ') ∧
      disk σ' = disk σ).
Proof.
  intros [o Ho].
  split; (eexists; split; [by apply setattr_ok|]);
    (split; [apply getattr_ok, attr_set_field_eq|reflexivity]).
Qed.

Lemma flag_set_then_get_witness :
  is_Some (heap σ3 !! 2%positive) ∧
  (∃ σ',
      Session.report_errors_setter 2%positive (VBool false) σ3 = (Ok (), σ') ∧
      Session.report_errors 2%positive σ' = (Ok (VBool false), σ') ∧
      disk σ' = disk σ3) ∧
  (∃ σ',
      Session.flood_sleep_threshold_setter 2%positive (VBool false) σ3 = (Ok (), σ') ∧
      Session.flood_sleep_threshold 2%positive σ' = (Ok (VBool false), σ') ∧
      disk σ' = disk σ3).
Proof.
  assert (is_Some (heap σ3 !! 2%positive)) as Hlive
    by (exists pristine; vm_compute; reflexivity).
  split; [exact Hlive|].
  exact (flag_set_then_get σ3 2%positive (VBool false) Hlive).
Defined.

(** C7.  The base class's [list_sessions] returns the empty list and
    changes nothing, so whatever runs after it runs as if it had not
    been called. *)
Theorem list_sessions_default cls σ :
  Session.list_sessions cls σ = (Ok (VList []), σ) ∧
  ∀ (A : Type) (operation : M A),
    (Session.list_sessions cls ;; operation) σ = operation σ.
Proof. split; [reflexivity|]. intros A operation. reflexivity. Qed.

(** C10.  The setter of [report_errors] leaves
    [flood_sleep_threshold] as it was, and the setter of
    [flood_sleep_threshold] leaves [report_errors] as it was; each
    changes only its own attribute of [self]: every other attribute of
    [self], the class of [self] and every other instance stay the
    same. *)
Theorem flag_setters_independent σ self v :
  is_Some (heap σ !! self) →
  (∃ σ',
      Session.report_errors_setter self v σ = (Ok (), σ') ∧
      (Session.flood_sleep_threshold self σ').1 = (Session.flood_sleep_threshold self σ).1 ∧
      (∀ name, name ≠ "_report_errors" → attr σ' self name = attr σ self name) ∧
      class_at σ' self = class_at σ self ∧
      (∀ l, l ≠ self → heap σ' !! l = heap σ !! l)) ∧
  (∃ σ',
      Session.flood_sleep_threshold_setter self v σ = (Ok (), σ') ∧
      (Session.report_errors self σ').1 = (Session.report_errors self σ).1 ∧
      (∀ name, name ≠ "_flood_sleep_threshold" → attr σ' self name = attr σ self name) ∧
      class_at σ' self = class_at σ self ∧
      (∀ l, l ≠ self → heap σ' !! l = heap σ !! l)).
Proof.
  intros [o Ho].
  assert (∀ name name' σ', name ≠ name' →
            attr σ' self name' = attr σ self name' →
            (getattr self name' σ').1 = (getattr self name' σ).1) as Hget.
  { intros name name' σ' _ Heq.
    destruct (attr σ self name') as [w|] eqn:Hw.
    - by rewrite (getattr_ok _ _ _ _ Heq), (getattr_ok _ _ _ _ Hw).
    - by rewrite (getattr_fail _ _ _ Heq), (getattr_fail _ _ _ Hw). }
  split; (eexists; split; [by apply setattr_ok|]).
  - split; [apply (Hget "_report_errors"); [done|by apply attr_set_field_ne]|].
    split; [intros name Hne; by apply attr_set_field_ne|].
    split; [unfold class_at; simpl; by rewrite lookup_insert_eq, Ho|].
    intros l Hl. simpl. by apply lookup_insert_ne.
  - split; [apply (Hget "_flood_sleep_threshold"); [done|by apply attr_set_field_ne]|].
    split; [intros name Hne; by apply attr_set_field_ne|].
    split; [unfold class_at; simpl; by rewrite lookup_insert_eq, Ho|].
    intros l Hl. simpl. by apply lookup_insert_ne.
Qed.

Lemma flag_setters_independent_witness :
  is_Some (heap σ3 !! 1%positive) ∧
  (∃ σ',
      Session.report_errors_setter 1%positive (VBool true) σ3 = (Ok (), σ') ∧
      (Session.flood_sleep_threshold 1%positive σ').1
      = (Session.flood_sleep_threshold 1%positive σ3).1 ∧
      (∀ name, name ≠ "_report_errors" →
               attr σ' 1%positive name = attr σ3 1%positive name) ∧
      class_at σ' 1%positive = class_at σ3 1%positive ∧
      (∀ l, l ≠ 1%positive → heap σ' !! l = heap σ3 !! l)) ∧
  (∃ σ',
      Session.flood_sleep_threshold_setter 1%positive (VBool true) σ3 = (Ok (), σ') ∧
      (Session.report_errors 1%positive σ').1 = (Session.report_errors 1%positive σ3).1 ∧
      (∀ name, name ≠ "_flood_sleep_threshold" →
               attr σ' 1%positive name = attr σ3 1%positive name) ∧
      class_at σ' 1%positive = class_at σ3 1%positive ∧
      (∀ l, l ≠ 1%positive → heap σ' !! l = heap σ3 !! l)).
Proof.
  assert (is_Some (heap σ3 !! 1%positive)) as Hlive
    by (exists configured; vm_compute; reflexivity).
  split; [exact Hlive|].
  exact (flag_setters_independent σ3 1%positive (VBool true) Hlive).
Defined.

(** ** Further properties of the base class *)

(** *** Every way [clone] can end *)

(** The three ways the flag-copying part of [clone] can end: it raises
    before anything is stored; it raises after [_report_errors] has
    been stored in the target; or it stores both flags and returns. *)
Lemma copy_flags_cases σ self cloned :
  copy_flags self cloned σ = (Raise AttributeError, σ) ∨
  (∃ c oc r,
      cloned = VRef c ∧ heap σ !! c = Some oc ∧
      attr σ self "_report_errors" = Some r ∧
      copy_flags self cloned σ
      = (Raise AttributeError,
         State (<[c := set_field "_report_errors" r oc]> (heap σ)) (disk σ))) ∨
  (∃ c oc r f,
      cloned = VRef c ∧ heap σ !! c = Some oc ∧
      attr σ self "_report_errors" = Some r ∧
      attr σ self "_flood_sleep_threshold" = Some f ∧
      copy_flags self cloned σ
      = (Ok (VRef c), State (<[c := with_flags r f oc]> (heap σ)) (disk σ))).
Proof.
  destruct (attr σ self "_report_errors") as [r|] eqn:Hr;
    [|left; by erewrite bind_raise by (by apply getattr_fail)].
  destruct cloned as [| | | | |c];
    try (left; erewrite bind_ok by (by apply getattr_ok);
         by erewrite bind_raise by reflexivity).
  destruct (heap σ !! c) as [oc|] eqn:Hc; cycle 1.
  { left. erewrite bind_ok by (by apply getattr_ok).
    by erewrite bind_raise by (unfold setattr; by rewrite Hc). }
  right.
  destruct (attr σ self "_flood_sleep_threshold") as [f|] eqn:Hf.
  - right. exists c, oc, r, f. repeat (split; [done|]).
    by apply copy_flags_ok.
  - left. exists c, oc, r. repeat (split; [done|]).
    erewrite bind_ok by (by apply getattr_ok).
    erewrite bind_ok by (by apply setattr_ok).
    erewrite bind_raise; [reflexivity|].
    apply getattr_fail. destruct (decide (c = self)) as [->|Hne].
    + by erewrite attr_set_field_ne.
    + by rewrite attr_other_object.
Qed.

Lemma flags_apart_refl target l o : flags_apart target l o o.
Proof. by repeat split. Qed.

Lemma flags_apart_set_report c o r :
  flags_apart (VRef c) c o (set_field "_report_errors" r o).
Proof.
  split; [done|]. split; [|split; [|done]].
  - intros name Hname. unfold set_field. simpl.
    destruct (decide ("_report_errors" = name)) as [<-|Hne].
    + rewrite lookup_insert_eq. eauto.
    + by rewrite lookup_insert_ne.
  - intros name Hr _. unfold set_field. simpl. by rewrite lookup_insert_ne.
Qed.

Lemma flags_apart_with_flags c o r f :
  flags_apart (VRef c) c o (with_flags r f o).
Proof.
  split; [done|]. split; [|split; [|done]].
  - intros name Hname. unfold with_flags, set_field. simpl.
    destruct (decide ("_flood_sleep_threshold" = name)) as [<-|Hf];
      [rewrite lookup_insert_eq; eauto|].
    rewrite lookup_insert_ne by done.
    destruct (decide ("_report_errors" = name)) as [<-|Hr];
      [rewrite lookup_insert_eq; eauto|].
    by rewrite lookup_insert_ne.
  - intros name Hr Hf. unfold with_flags, set_field. simpl.
    by rewrite !lookup_insert_ne.
Qed.

(** An instance written to at [c] only: every instance is [flags_apart]
    from what it was. *)
Lemma write_at_frame σ c oc oc' d l o :
  heap σ !! c = Some oc →
  flags_apart (VRef c) c oc oc' →
  heap σ !! l = Some o →
  ∃ o', heap (State (<[c := oc']> (heap σ)) d) !! l = Some o' ∧
        flags_apart (VRef c) l o o'.
Proof.
  intros Hc Hapart Hl. simpl. destruct (decide (c = l)) as [<-|Hne].
  - exists oc'. rewrite lookup_insert_eq. split; [done|]. congruence.
  - exists o. rewrite lookup_insert_ne by done. split; [done|].
    apply flags_apart_refl.
Qed.

Lemma copy_flags_frame_all σ self cloned :
  disk (copy_flags self cloned σ).2 = disk σ ∧
  ∀ l o, heap σ !! l = Some o →
    ∃ o', heap (copy_flags self cloned σ).2 !! l = Some o' ∧
          flags_apart cloned l o o'.
Proof.
  destruct (copy_flags_cases σ self cloned)
    as [H|[(c & oc & r & -> & Hc & _ & H)|(c & oc & r & f & -> & Hc & _ & _ & H)]];
    rewrite H; simpl; (split; [done|]); intros l o Hl.
  - exists o. split; [done|]. apply flags_apart_refl.
  - eapply (write_at_frame σ c oc _ (disk σ)); eauto using flags_apart_set_report.
  - eapply (write_at_frame σ c oc _ (disk σ)); eauto using flags_apart_with_flags.
Qed.

(** The ways the choice of the clone can end. *)
Lemma clone_target_cases σ self to_instance :
  (truthy σ to_instance = true ∧
   Session.clone_target self to_instance σ = (Ok to_instance, σ)) ∨
  (truthy σ to_instance = false ∧ heap σ !! self = None ∧
   Session.clone_target self to_instance σ = (Raise AttributeError, σ)) ∨
  (∃ o, truthy σ to_instance = false ∧ heap σ !! self = Some o ∧
        Session.clone_target self to_instance σ
        = (Ok (VRef (fresh (dom (heap σ)))),
           State (<[fresh (dom (heap σ)) := Obj (obj_class o) (init_dict (obj_class o))]>
                    (heap σ)) (disk σ))).
Proof.
  destruct (truthy σ to_instance) eqn:Htruth.
  - left. split; [done|]. by apply clone_target_true.
  - right. destruct (heap σ !! self) as [o|] eqn:Ho.
    + right. exists o. repeat (split; [done|]). by apply clone_target_false.
    + left. repeat (split; [done|]).
      unfold Session.clone_target, py_or. rewrite Htruth.
      apply bind_raise. unfold class_of. by rewrite Ho.
Qed.

Lemma clone_frame_all σ self to_instance :
  disk (Session.clone self to_instance σ).2 = disk σ ∧
  ∀ l o, heap σ !! l = Some o →
    ∃ o', heap (Session.clone self to_instance σ).2 !! l = Some o' ∧
          flags_apart to_instance l o o'.
Proof.
  rewrite clone_unfold.
  destruct (clone_target_cases σ self to_instance)
    as [[_ H]|[(_ & _ & H)|(o & _ & Ho & H)]].
  - erewrite bind_ok by exact H. apply copy_flags_frame_all.
  - erewrite bind_raise by exact H. split; [done|].
    intros l o Hl. exists o. split; [done|]. apply flags_apart_refl.
  - erewrite bind_ok by exact H.
    match goal with |- context [copy_flags self ?t ?s] =>
      destruct (copy_flags_frame_all s self t) as [Hdisk Hframe]
    end.
    split; [by rewrite Hdisk|]. intros l ol Hl.
    assert (fresh (dom (heap σ)) ≠ l) as Hne by (apply fresh_ne_live; eauto).
    destruct (Hframe l ol) as (o' & Ho' & _ & _ & _ & Hsame).
    { simpl. by rewrite lookup_insert_ne. }
    exists o'. split; [exact Ho'|].
    rewrite Hsame by congruence. apply flags_apart_refl.
Qed.

Lemma with_flags_id o r f :
  obj_dict o !! "_report_errors" = Some r →
  obj_dict o !! "_flood_sleep_threshold" = Some f →
  with_flags r f o = o.
Proof.
  intros Hr Hf. unfold with_flags. rewrite (set_field_id o _ r Hr).
  by apply set_field_id.
Qed.

Lemma with_flags_session σ c o r f d :
  is_session (State (<[c := with_flags r f o]> (heap σ)) d) c.
Proof.
  split; unfold attr, with_flags, set_field; simpl; rewrite lookup_insert_eq; simpl.
  - rewrite lookup_insert_ne by done. rewrite lookup_insert_eq. eauto.
  - rewrite lookup_insert_eq. eauto.
Qed.

(** What [setattr] on an instance does to the heap, raising or not. *)
Lemma setattr_frame σ self name v l :
  l ≠ self → heap (setattr (VRef self) name v σ).2 !! l = heap σ !! l.
Proof.
  intros Hne. unfold setattr. destruct (heap σ !! self) as [o|]; [|done].
  simpl. by rewrite lookup_insert_ne.
Qed.

(** *** Properties *)

(** X1.  When [clone] returns, [self] carried both flags and the
    target was false or a live instance; what is returned is an
    instance that carries both flags, and it is the target whenever the
    target was true. *)
Theorem clone_returns_only_when σ self to_instance v σ' :
  Session.clone self to_instance σ = (Ok v, σ') →
  is_session σ self ∧
  can_clone_into σ to_instance ∧
  ∃ c, v = VRef c ∧ is_session σ' c ∧
       (truthy σ to_instance = true → to_instance = VRef c).
Proof.
  intros Hrun.
  pose proof (clone_returns_only_if _ _ _ _ _ Hrun) as [Hs Ht].
  split; [exact Hs|]. split; [exact Ht|].
  destruct (clone_returns σ self to_instance Hs Ht)
    as (c & σ1 & oc & r & f & Htgt & _ & _ & _ & _ & _ & Hclone).
  rewrite Hclone in Hrun. injection Hrun as <- <-.
  exists c. split; [done|]. split; [apply with_flags_session|].
  intros Htrue. rewrite (clone_target_true σ self _ Htrue) in Htgt.
  by injection Htgt as -> _.
Qed.

Lemma clone_returns_only_when_witness :
  Session.clone 1%positive (VRef 2%positive) σ3
  = (Ok (VRef 2%positive), (Session.clone 1%positive (VRef 2%positive) σ3).2) ∧
  is_session σ3 1%positive ∧
  can_clone_into σ3 (VRef 2%positive) ∧
  ∃ c, VRef 2%positive = VRef c ∧
       is_session (Session.clone 1%positive (VRef 2%positive) σ3).2 c ∧
       (truthy σ3 (VRef 2%positive) = true → VRef 2%positive = VRef c).
Proof.
  assert (Session.clone 1%positive (VRef 2%positive) σ3
          = (Ok (VRef 2%positive), (Session.clone 1%positive (VRef 2%positive) σ3).2))
    as Hrun by (vm_compute; reflexivity).
  split; [exact Hrun|].
  exact (clone_returns_only_when σ3 1%positive (VRef 2%positive) _ _ Hrun).
Defined.

(** X2.  A target that is true but is not an instance ([True], a
    number other than [0], a string or list that is not empty) makes
    [clone] raise [AttributeError], and nothing has changed when it
    does. *)
Theorem clone_into_non_instance σ self to_instance :
  truthy σ to_instance = true →
  (∀ l, to_instance ≠ VRef l) →
  Session.clone self to_instance σ = (Raise AttributeError, σ).
Proof.
  intros Htrue Hval. rewrite clone_unfold.
  erewrite bind_ok by (by apply clone_target_true).
  destruct (copy_flags_cases σ self to_instance)
    as [H|[(c & oc & r & Heq & _)|(c & oc & r & f & Heq & _)]];
    [exact H|by destruct (Hval c)..].
Qed.

Lemma clone_into_non_instance_witness :
  truthy σ3 (VStr "session") = true ∧
  (∀ l, VStr "session" ≠ VRef l) ∧
  Session.clone 1%positive (VStr "session") σ3 = (Raise AttributeError, σ3).
Proof.
  assert (truthy σ3 (VStr "session") = true) as Htrue by reflexivity.
  assert (∀ l, VStr "session" ≠ VRef l) as Hval by (intros l H; discriminate H).
  split; [exact Htrue|]. split; [exact Hval|].
  exact (clone_into_non_instance σ3 1%positive (VStr "session") Htrue Hval).
Defined.

(** X3.  Whatever its arguments and whether it returns or raises,
    [clone] leaves the storage medium alone and removes no instance;
    every instance that was live keeps its class and all its
    attributes, with the same values except possibly for the two flags;
    and an instance other than the target is exactly as it was. *)
Theorem clone_frame σ self to_instance :
  disk (Session.clone self to_instance σ).2 = disk σ ∧
  ∀ l o, heap σ !! l = Some o →
    ∃ o', heap (Session.clone self to_instance σ).2 !! l = Some o' ∧
          obj_class o' = obj_class o ∧
          (∀ name, is_Some (obj_dict o !! name) → is_Some (obj_dict o' !! name)) ∧
          (∀ name, name ≠ "_report_errors" → name ≠ "_flood_sleep_threshold" →
                   obj_dict o' !! name = obj_dict o !! name) ∧
          (to_instance ≠ VRef l → o' = o).
Proof. exact (clone_frame_all σ self to_instance). Qed.

(** X4.  Cloning a session into itself returns it and changes
    nothing at all. *)
Theorem clone_into_self σ self :
  is_session σ self → truthy σ (VRef self) = true →
  Session.clone self (VRef self) σ = (Ok (VRef self), σ).
Proof.
  intros Hs Htrue. pose proof (is_session_live _ _ Hs) as [o Ho].
  destruct Hs as [[r Hr] [f Hf]].
  erewrite clone_ok; [|by apply clone_target_true|exact Ho|exact Hr|exact Hf].
  rewrite (attr_lookup σ self o _ Ho) in Hr.
  rewrite (attr_lookup σ self o _ Ho) in Hf.
  rewrite (with_flags_id o r f Hr Hf), insert_id by done.
  by rewrite state_eta.
Qed.

Lemma clone_into_self_witness :
  is_session σ3 1%positive ∧ truthy σ3 (VRef 1%positive) = true ∧
  Session.clone 1%positive (VRef 1%positive) σ3 = (Ok (VRef 1%positive), σ3).
Proof.
  assert (truthy σ3 (VRef 1%positive) = true) as Htrue by (vm_compute; reflexivity).
  split; [exact configured_is_session|]. split; [exact Htrue|].
  exact (clone_into_self σ3 1%positive configured_is_session Htrue).
Defined.

(** X5.  Cloning into the same target a second time changes nothing:
    when [clone] has returned a target that was and still is true,
    calling it again with that target returns it with the state as the
    first call left it. *)
Theorem clone_twice_into_target σ self target σ' :
  truthy σ (VRef target) = true →
  Session.clone self (VRef target) σ = (Ok (VRef target), σ') →
  truthy σ' (VRef target) = true →
  Session.clone self (VRef target) σ' = (Ok (VRef target), σ').
Proof.
  intros Htrue Hrun Htrue'.
  pose proof (clone_returns_only_if _ _ _ _ _ Hrun) as [Hs Ht].
  pose proof (is_session_live _ _ Hs) as Hlive.
  assert (heap (Session.clone self (VRef target) σ).2 !! self = heap σ !! self) as Hself.
  { rewrite clone_unfold. erewrite bind_ok by (by apply clone_target_true).
    apply copy_flags_frame. }
  rewrite Hrun in Hself. simpl in Hself.
  destruct (clone_returns σ self (VRef target) Hs Ht)
    as (c & σ1 & oc & r & f & Htgt & Hc & Hr & Hf & _ & _ & Hclone).
  rewrite (clone_target_true σ self _ Htrue) in Htgt.
  injection Htgt as <- <-.
  rewrite Hclone in Hrun. injection Hrun as <-.
  erewrite clone_ok; [|by apply clone_target_true|simpl; apply lookup_insert_eq|..].
  - f_equal. f_equal. simpl. rewrite insert_insert_eq. f_equal.
    apply with_flags_id; unfold with_flags, set_field; simpl.
    + rewrite lookup_insert_ne by done. apply lookup_insert_eq.
    + apply lookup_insert_eq.
  - unfold attr. rewrite Hself. exact Hr.
  - unfold attr. rewrite Hself. exact Hf.
Qed.

Lemma clone_twice_into_target_witness :
  truthy σ3 (VRef 2%positive) = true ∧
  Session.clone 1%positive (VRef 2%positive) σ3
  = (Ok (VRef 2%positive), (Session.clone 1%positive (VRef 2%positive) σ3).2) ∧
  truthy (Session.clone 1%positive (VRef 2%positive) σ3).2 (VRef 2%positive) = true ∧
  Session.clone 1%positive (VRef 2%positive)
    (Session.clone 1%positive (VRef 2%positive) σ3).2
  = (Ok (VRef 2%positive), (Session.clone 1%positive (VRef 2%positive) σ3).2).
Proof.
  assert (truthy σ3 (VRef 2%positive) = true) as Htrue by (vm_compute; reflexivity).
  assert (Session.clone 1%positive (VRef 2%positive) σ3
          = (Ok (VRef 2%positive), (Session.clone 1%positive (VRef 2%positive) σ3).2))
    as Hrun by (vm_compute; reflexivity).
  assert (truthy (Session.clone 1%positive (VRef 2%positive) σ3).2 (VRef 2%positive)
          = true) as Htrue' by (vm_compute; reflexivity).
  split; [exact Htrue|]. split; [exact Hrun|]. split; [exact Htrue'|].
  exact (clone_twice_into_target σ3 1%positive 2%positive _ Htrue Hrun Htrue').
Defined.

(** X6.  A clone made without a target is a separate object: it is not
    the source, setting either flag of the clone leaves the source as
    it was and setting either flag of the source leaves the clone as it
    was; and cloning again gives yet another object. *)
Theorem fresh_clone_is_independent σ self :
  is_session σ self →
  ∃ c σ',
    Session.clone self VNone σ = (Ok (VRef c), σ') ∧
    c ≠ self ∧
    (∀ v,
       heap (Session.report_errors_setter c v σ').2 !! self = heap σ !! self ∧
       heap (Session.flood_sleep_threshold_setter c v σ').2 !! self = heap σ !! self ∧
       heap (Session.report_errors_setter self v σ').2 !! c = heap σ' !! c ∧
       heap (Session.flood_sleep_threshold_setter self v σ').2 !! c = heap σ' !! c) ∧
    ∃ c2 σ2,
      Session.clone self VNone σ' = (Ok (VRef c2), σ2) ∧ c2 ≠ c ∧ c2 ≠ self.
Proof.
  intros Hs. pose proof (is_session_live _ _ Hs) as Hlive.
  destruct (clone_absent σ self Hs) as (c & σ' & Hrun & Hnew & Hcls & _ & Hframe).
  assert (c ≠ self) as Hne by (intros ->; destruct Hlive; congruence).
  assert (heap σ' !! self = heap σ !! self) as Hself by (by apply Hframe).
  exists c, σ'. split; [exact Hrun|]. split; [exact Hne|]. split.
  - intros v. unfold Session.report_errors_setter, Session.flood_sleep_threshold_setter.
    rewrite !setattr_frame by done. by rewrite Hself.
  - assert (is_session σ' self) as Hs'
      by (destruct Hs as [Hr Hf]; split; unfold attr in *; by rewrite Hself).
    destruct (clone_absent σ' self Hs') as (c2 & σ2 & Hrun2 & Hnew2 & _).
    exists c2, σ2. split; [exact Hrun2|]. split.
    + intros ->. unfold class_at in Hcls. rewrite Hnew2 in Hcls.
      by destruct Hcls.
    + intros ->. rewrite Hself in Hnew2. destruct Hlive. congruence.
Qed.

Lemma fresh_clone_is_independent_witness :
  is_session σ3 1%positive ∧
  ∃ c σ',
    Session.clone 1%positive VNone σ3 = (Ok (VRef c), σ') ∧
    c ≠ 1%positive ∧
    (∀ v,
       heap (Session.report_errors_setter c v σ').2 !! 1%positive
       = heap σ3 !! 1%positive ∧
       heap (Session.flood_sleep_threshold_setter c v σ').2 !! 1%positive
       = heap σ3 !! 1%positive ∧
       heap (Session.report_errors_setter 1%positive v σ').2 !! c = heap σ' !! c ∧
       heap (Session.flood_sleep_threshold_setter 1%positive v σ').2 !! c
       = heap σ' !! c) ∧
    ∃ c2 σ2,
      Session.clone 1%positive VNone σ' = (Ok (VRef c2), σ2) ∧
      c2 ≠ c ∧ c2 ≠ 1%positive.
Proof.
  split; [exact configured_is_session|].
  exact (fresh_clone_is_independent σ3 1%positive configured_is_session).
Defined.

Lemma is_session_flags_apart σ σ' target l o o' :
  heap σ !! l = Some o → heap σ' !! l = Some o' →
  flags_apart target l o o' →
  is_session σ l → is_session σ' l.
Proof.
  intros Ho Ho' (_ & Hkeep & _) [Hr Hf].
  rewrite (attr_lookup _ _ _ _ Ho) in Hr. rewrite (attr_lookup _ _ _ _ Ho) in Hf.
  split; rewrite (attr_lookup _ _ _ _ Ho'); by apply Hkeep.
Qed.

Lemma is_session_setattr σ self name v l :
  is_session σ l → is_session (setattr (VRef self) name v σ).2 l.
Proof.
  intros Hs. unfold setattr.
  destruct (heap σ !! self) as [o|] eqn:Ho; [|exact Hs]. simpl.
  destruct (decide (self = l)) as [->|Hne].
  - destruct Hs as [Hr Hf].
    rewrite (attr_lookup _ _ _ _ Ho) in Hr. rewrite (attr_lookup _ _ _ _ Ho) in Hf.
    split; unfold attr, set_field; simpl; rewrite lookup_insert_eq; simpl.
    + destruct (decide (name = "_report_errors")) as [->|Hn];
        [rewrite lookup_insert_eq; eauto|by rewrite lookup_insert_ne].
    + destruct (decide (name = "_flood_sleep_threshold")) as [->|Hn];
        [rewrite lookup_insert_eq; eauto|by rewrite lookup_insert_ne].
  - destruct Hs as [Hr Hf]. split; by rewrite attr_other_object.
Qed.

(** X7.  No operation of the base class takes a flag away: an instance
    that carries both flags still carries both after [clone] (with any
    arguments, returning or raising), after either setter and after
    [__init__], whichever instance these are called on. *)
Theorem sessions_stay_sessions σ self l :
  is_session σ l →
  (∀ to_instance, is_session (Session.clone self to_instance σ).2 l) ∧
  (∀ v, is_session (Session.report_errors_setter self v σ).2 l) ∧
  (∀ v, is_session (Session.flood_sleep_threshold_setter self v σ).2 l) ∧
  is_session (Session.__init__ self σ).2 l.
Proof.
  intros Hs. split; [|split; [|split]].
  - intros to_instance. pose proof (is_session_live _ _ Hs) as [o Ho].
    destruct (clone_frame_all σ self to_instance) as [_ Hframe].
    destruct (Hframe l o Ho) as (o' & Ho' & Hapart).
    exact (is_session_flags_apart σ _ to_instance l o o' Ho Ho' Hapart Hs).
  - intros v. by apply is_session_setattr.
  - intros v. by apply is_session_setattr.
  - unfold Session.__init__, mbind, M_bind, bind.
    pose proof (is_session_setattr σ self "_report_errors" (VBool true) l Hs) as H1.
    destruct (setattr (VRef self) "_report_errors" (VBool true) σ) as [[[]|e] σ1];
      [|exact H1].
    by apply is_session_setattr.
Qed.

Lemma sessions_stay_sessions_witness :
  is_session σ3 2%positive ∧
  (∀ to_instance, is_session (Session.clone 1%positive to_instance σ3).2 2%positive) ∧
  (∀ v, is_session (Session.report_errors_setter 1%positive v σ3).2 2%positive) ∧
  (∀ v, is_session (Session.flood_sleep_threshold_setter 1%positive v σ3).2 2%positive) ∧
  is_session (Session.__init__ 1%positive σ3).2 2%positive.
Proof.
  split; [exact pristine_is_session|].
  exact (sessions_stay_sessions σ3 1%positive 2%positive pristine_is_session).
Defined.

Lemma set_field_twice name v w o :
  set_field name w (set_field name v o) = set_field name w o.
Proof. unfold set_field. simpl. by rewrite insert_insert_eq. Qed.

Lemma set_field_swap name name' v w o :
  name ≠ name' →
  set_field name' w (set_field name v o) = set_field name v (set_field name' w o).
Proof.
  intros Hne. unfold set_field. simpl. f_equal. by apply insert_insert_ne.
Qed.

(** Two assignments to attributes of the same instance, as one. *)
Lemma setattr_setattr σ self name v name' w :
  (setattr (VRef self) name v ;; setattr (VRef self) name' w) σ
  = match heap σ !! self with
    | Some o =>
        (Ok (), State (<[self := set_field name' w (set_field name v o)]> (heap σ))
                      (disk σ))
    | None => (Raise AttributeError, σ)
    end.
Proof.
  destruct (heap σ !! self) as [o|] eqn:Ho.
  - erewrite bind_ok by (by apply setattr_ok).
    erewrite setattr_ok by (simpl; apply lookup_insert_eq).
    simpl. by rewrite insert_insert_eq.
  - apply bind_raise. unfold setattr. by rewrite Ho.
Qed.

(** X8.  Of two successive assignments to the same flag the second one
    wins: the state is the one the second assignment alone would have
    given.  This holds for both flags, also when the call raises. *)
Theorem flag_setter_last_write_wins σ self v w :
  (Session.report_errors_setter self v ;; Session.report_errors_setter self w) σ
  = Session.report_errors_setter self w σ ∧
  (Session.flood_sleep_threshold_setter self v ;;
   Session.flood_sleep_threshold_setter self w) σ
  = Session.flood_sleep_threshold_setter self w σ.
Proof.
  unfold Session.report_errors_setter, Session.flood_sleep_threshold_setter.
  rewrite !setattr_setattr. unfold setattr.
  destruct (heap σ !! self) as [o|]; [|done].
  by rewrite !set_field_twice.
Qed.

(** X9.  The two flag setters of a session commute: setting
    [report_errors] and then [flood_sleep_threshold] ends in the same
    state, with the same outcome, as setting them the other way
    round. *)
Theorem flag_setters_commute σ self v w :
  (Session.report_errors_setter self v ;;
   Session.flood_sleep_threshold_setter self w) σ
  = (Session.flood_sleep_threshold_setter self w ;;
     Session.report_errors_setter self v) σ.
Proof.
  unfold Session.report_errors_setter, Session.flood_sleep_threshold_setter.
  rewrite !setattr_setattr.
  destruct (heap σ !! self) as [o|]; [|done].
  by rewrite set_field_swap.
Qed.

Lemma with_flags_overwrite r f o o' :
  obj_class o' = obj_class o →
  (∀ name, name ≠ "_report_errors" → name ≠ "_flood_sleep_threshold" →
           obj_dict o' !! name = obj_dict o !! name) →
  with_flags r f o' = with_flags r f o.
Proof.
  intros Hcls Hsame. unfold with_flags, set_field. simpl. f_equal; [done|].
  apply map_eq. intros name.
  destruct (decide ("_flood_sleep_threshold" = name)) as [<-|Hf];
    [by rewrite !lookup_insert_eq|].
  rewrite !(lookup_insert_ne _ "_flood_sleep_threshold") by done.
  destruct (decide ("_report_errors" = name)) as [<-|Hr];
    [by rewrite !lookup_insert_eq|].
  rewrite !lookup_insert_ne by done. by apply Hsame.
Qed.

(** X10.  [Session.__init__] on a live instance writes the two flags
    and nothing else: the storage medium, the class of the instance,
    its other attributes and all other instances are as before.
    Running it again changes nothing, and running it after the flags
    have been set to anything puts the instance back in the state a
    first run gives. *)
Theorem init_resets_flags σ self :
  is_Some (heap σ !! self) →
  ∃ σ',
    Session.__init__ self σ = (Ok (), σ') ∧
    disk σ' = disk σ ∧
    class_at σ' self = class_at σ self ∧
    (∀ name, name ≠ "_report_errors" → name ≠ "_flood_sleep_threshold" →
             attr σ' self name = attr σ self name) ∧
    (∀ l, l ≠ self → heap σ' !! l = heap σ !! l) ∧
    Session.__init__ self σ' = (Ok (), σ') ∧
    ∀ v w,
      (Session.report_errors_setter self v ;;
       Session.flood_sleep_threshold_setter self w ;;
       Session.__init__ self) σ = (Ok (), σ').
Proof.
  intros [o Ho]. eexists. split; [by apply Session_init_ok|].
  split; [done|].
  split; [unfold class_at; simpl; by rewrite lookup_insert_eq, Ho|].
  split.
  { intros name Hr Hf. unfold attr, with_flags, set_field. simpl.
    rewrite lookup_insert_eq, Ho. simpl. by rewrite !lookup_insert_ne. }
  split; [intros l Hl; simpl; by rewrite lookup_insert_ne|].
  split.
  - erewrite Session_init_ok by (simpl; apply lookup_insert_eq).
    simpl. rewrite insert_insert_eq. do 3 f_equal.
    apply with_flags_id; unfold with_flags, set_field; simpl.
    + rewrite lookup_insert_ne by done. apply lookup_insert_eq.
    + apply lookup_insert_eq.
  - intros v w.
    unfold Session.report_errors_setter, Session.flood_sleep_threshold_setter.
    erewrite bind_ok by (by apply setattr_ok).
    erewrite bind_ok by (apply setattr_ok; simpl; apply lookup_insert_eq).
    erewrite Session_init_ok by (simpl; apply lookup_insert_eq).
    simpl. rewrite !insert_insert_eq. do 3 f_equal.
    apply with_flags_overwrite; [done|].
    intros name Hr Hf. unfold set_field. simpl. by rewrite !lookup_insert_ne.
Qed.

Lemma init_resets_flags_witness :
  is_Some (heap σ3 !! 1%positive) ∧
  ∃ σ',
    Session.__init__ 1%positive σ3 = (Ok (), σ') ∧
    disk σ' = disk σ3 ∧
    class_at σ' 1%positive = class_at σ3 1%positive ∧
    (∀ name, name ≠ "_report_errors" → name ≠ "_flood_sleep_threshold" →
             attr σ' 1%positive name = attr σ3 1%positive name) ∧
    (∀ l, l ≠ 1%positive → heap σ' !! l = heap σ3 !! l) ∧
    Session.__init__ 1%positive σ' = (Ok (), σ') ∧
    ∀ v w,
      (Session.report_errors_setter 1%positive v ;;
       Session.flood_sleep_threshold_setter 1%positive w ;;
       Session.__init__ 1%positive) σ3 = (Ok (), σ').
Proof.
  assert (is_Some (heap σ3 !! 1%positive)) as Hlive
    by (exists configured; vm_compute; reflexivity).
  split; [exact Hlive|].
  exact (init_resets_flags σ3 1%positive Hlive).
Defined.

(** X11.  [clone] stores the flags one after the other and does not
    undo the first store: when the source has [_report_errors] but no
    [_flood_sleep_threshold], cloning into a live, true target raises
    [AttributeError] with the target's [_report_errors] already
    overwritten by the source's. *)
Theorem clone_raises_after_first_store σ self target ot r :
  heap σ !! target = Some ot →
  truthy σ (VRef target) = true →
  attr σ self "_report_errors" = Some r →
  attr σ self "_flood_sleep_threshold" = None →
  Session.clone self (VRef target) σ
  = (Raise AttributeError,
     State (<[target := set_field "_report_errors" r ot]> (heap σ)) (disk σ)).
Proof.
  intros Ht Htrue Hr Hf. rewrite clone_unfold.
  erewrite bind_ok by (by apply clone_target_true).
  erewrite bind_ok by (by apply getattr_ok).
  erewrite bind_ok by (by apply setattr_ok).
  erewrite bind_raise; [reflexivity|].
  apply getattr_fail. destruct (decide (target = self)) as [->|Hne].
  - by erewrite attr_set_field_ne.
  - by rewrite attr_other_object.
Qed.

Lemma clone_raises_after_first_store_witness :
  heap σ_half !! 2%positive = Some pristine ∧
  truthy σ_half (VRef 2%positive) = true ∧
  attr σ_half 1%positive "_report_errors" = Some (VBool false) ∧
  attr σ_half 1%positive "_flood_sleep_threshold" = None ∧
  Session.clone 1%positive (VRef 2%positive) σ_half
  = (Raise AttributeError,
     State (<[2%positive := set_field "_report_errors" (VBool false) pristine]>
              (heap σ_half)) (disk σ_half)).
Proof.
  assert (heap σ_half !! 2%positive = Some pristine) as Ht
    by (vm_compute; reflexivity).
  assert (truthy σ_half (VRef 2%positive) = true) as Htrue
    by (vm_compute; reflexivity).
  assert (attr σ_half 1%positive "_report_errors" = Some (VBool false)) as Hr
    by (vm_compute; reflexivity).
  assert (attr σ_half 1%positive "_flood_sleep_threshold" = None) as Hf
    by (vm_compute; reflexivity).
  split; [exact Ht|]. split; [exact Htrue|]. split; [exact Hr|]. split; [exact Hf|].
  exact (clone_raises_after_first_store σ_half 1%positive 2%positive pristine
           (VBool false) Ht Htrue Hr Hf).
Defined.
